(** * The note-taking API of [backend/api/views.py]

    A shallow embedding of the four Django REST framework views
    ([NoteListCreate], [NoteDelete], [CreateUserView], [CurrentUserView])
    together with the parts of the framework they call, followed by the
    properties of the views.

    Python exceptions are values of [Exception]; a computation that touches
    the database is a function from the database to a result (a value or a
    raised exception) and the database afterwards.  The views are written
    against an abstract [Backend], so that a property can be stated for every
    database, including one whose queries fail; [memdb] is the database that
    behaves as an ordinary relational store. *)

From Stdlib Require Import ZArith String.
From stdpp Require Import base option list sorting gmap strings pretty.

Set Warnings "-register-all".

Local Open Scope Z_scope.
Local Open Scope string_scope.

(** ** JSON values and Python dictionaries *)

(** The value of a response body.  A Python [dict] literal is the list of its
    items in the order they are written. *)
Inductive Json : Type :=
| JNull
| JBool (b : bool)
| JInt (z : Z)
| JStr (s : string)
| JList (l : list Json)
| JDict (d : list (string * Json)).

Abbreviation Dict := (list (string * Json)).

(** [d.get(k)]: the value of the first item whose key is [k]. *)
Fixpoint dict_get (k : string) (d : Dict) : option Json :=
  match d with
  | [] => None
  | (k', v) :: d' => if String.eqb k k' then Some v else dict_get k d'
  end.

(** [k in d]. *)
Definition dict_has (k : string) (d : Dict) : bool :=
  match dict_get k d with Some _ => true | None => false end.

(** ** Exceptions *)

(** The subclasses of Python's [Exception] that the views and the framework
    distinguish: [django.http.Http404], the model's [Note.DoesNotExist],
    [TypeError], [ValueError], Django's [ValidationError], and every other
    one.  Each carries the text that [str(e)] returns. *)
Inductive Exception : Type :=
| Http404 (msg : string)
| DoesNotExist (msg : string)
| TypeError (msg : string)
| ValueError (msg : string)
| ValidationError (msg : string)
| OtherException (msg : string).

Definition str (e : Exception) : string :=
  match e with
  | Http404 msg | DoesNotExist msg | TypeError msg | ValueError msg
  | ValidationError msg | OtherException msg => msg
  end.

Inductive Result (A : Type) : Type :=
| Return (a : A)
| Raise (e : Exception).
Arguments Return {A} a.
Arguments Raise {A} e.

(** ** Computations over a database *)

(** The database is changed by a query even when a later statement raises:
    the views run in autocommit mode, nothing is rolled back. *)
Definition M (DB A : Type) : Type := DB → Result A * DB.

Definition ret {DB A} (a : A) : M DB A := λ db, (Return a, db).

Definition raise {DB A} (e : Exception) : M DB A := λ db, (Raise e, db).

Definition bind {DB A B} (m : M DB A) (k : A → M DB B) : M DB B :=
  λ db, match m db with
        | (Return a, db') => k a db'
        | (Raise e, db') => (Raise e, db')
        end.

(** [try: m  except Exception as e: h e]. *)
Definition try_except {DB A} (m : M DB A) (h : Exception → M DB A) : M DB A :=
  λ db, match m db with
        | (Return a, db') => (Return a, db')
        | (Raise e, db') => h e db'
        end.

(** [try: m  except Note.DoesNotExist: h]; any other exception goes on. *)
Definition try_except_DoesNotExist {DB A} (m : M DB A) (h : M DB A) : M DB A :=
  λ db, match m db with
        | (Raise (DoesNotExist _), db') => h db'
        | r => r
        end.

Declare Scope py_scope.
Delimit Scope py_scope with py.
Notation "x <- m ;; k" := (bind m (λ x, k))
  (at level 100, m at next level, right associativity) : py_scope.
Notation "m ;;; k" := (bind m (λ _, k))
  (at level 100, right associativity) : py_scope.
Local Open Scope py_scope.

(** ** Models *)

(** [django.contrib.auth.models.User], as far as the views read it. *)
Module User.
Record t : Type := mk {
  id : Z;
  username : string;
  password : string;
  is_staff : bool;
  is_superuser : bool
}.
End User.

Module Note.
(** Modelled from the spec: [models.py] is not among the sources.  A note has
    an id, a title, a content, an author and the time of its creation (spec,
    Data Model); [Note.t] is the object the ORM hands to the view, with the
    author relation resolved ([note.author.username]).  No view updates or
    deletes a user, so the author a note is read with is the one it was
    saved with.  Times are integers (ticks of the server clock). *)
Record t : Type := mk {
  id : Z;
  title : string;
  content : string;
  author : User.t;
  created_at : Z
}.
End Note.

(** ** Querysets *)

(** The lazy queries that the views build; nothing is read from the database
    until one is iterated, counted or searched. *)
Inductive QuerySet : Type :=
| objects                                      (* Note.objects *)
| qs_all (q : QuerySet)                        (* q.all() *)
| qs_none (q : QuerySet)                       (* q.none() *)
| select_related_author (q : QuerySet)         (* q.select_related('author') *)
| order_by_created_at_desc (q : QuerySet).     (* q.order_by('-created_at') *)

(** What the views need from the database. *)
Class Backend (DB : Type) : Type := {
  (* iterating a queryset *)
  qs_iter : QuerySet → M DB (list Note.t);
  (* queryset.count() *)
  qs_count : QuerySet → M DB nat;
  (* queryset.get(pk=pk); raises Note.DoesNotExist when there is no row *)
  qs_get : QuerySet → Z → M DB Note.t;
  (* saving a new note at the given clock reading *)
  note_create : Z → string → string → User.t → M DB Note.t;
  (* instance.delete() *)
  note_delete : Note.t → M DB unit;
  (* User.objects.filter(username=name).exists() *)
  username_exists : string → M DB bool;
  (* User.objects.create_user(username, password) *)
  user_create : string → string → M DB User.t
}.

(** ** The framework: responses and status codes *)

(** [rest_framework.response.Response(data, status=...)]. *)
Module Response.
Record t : Type := mk {
  data : Json;
  status_code : Z
}.
End Response.

(** [rest_framework.status]. *)
Module status.
Definition HTTP_200_OK : Z := 200.
Definition HTTP_201_CREATED : Z := 201.
Definition HTTP_204_NO_CONTENT : Z := 204.
Definition HTTP_400_BAD_REQUEST : Z := 400.
Definition HTTP_403_FORBIDDEN : Z := 403.
Definition HTTP_404_NOT_FOUND : Z := 404.
Definition HTTP_500_INTERNAL_SERVER_ERROR : Z := 500.
End status.

(** ** Serializers *)

(** Why a field was rejected. *)
Inductive Reason : Type :=
| required
| blank
| max_length (n : nat)
| not_unique.

(** The framework's message for each reason. *)
Definition reason_text (r : Reason) : string :=
  match r with
  | required => "This field is required."
  | blank => "This field may not be blank."
  | max_length n =>
      "Ensure this field has no more than " ++ pretty n ++ " characters."
  | not_unique => "A user with that username already exists."
  end.

(** One entry of [serializer.errors] per rejected field. *)
Definition field_errors (field : string) (rs : list Reason) : Dict :=
  match rs with
  | [] => []
  | _ => [(field, JList ((λ r, JStr (reason_text r)) <$> rs))]
  end.

(** [NoteSerializer] of [serializers.py], which is not among the sources. *)
Module NoteSerializer.
(** Modelled from the spec: the payload of a create request has a [title]
    and a [content] (spec, CreateNote); [None] is a key that is absent from
    [request.data]. *)
Record Data : Type := mk {
  title : option string;
  content : option string
}.

(** Modelled from the spec: [serializers.py] and [models.py] are not among
    the sources.  The title is required, non-empty and at most 100
    characters long (spec, CreateNote and Data Model). *)
Definition validate_title (v : option string) : list Reason :=
  match v with
  | None => [required]
  | Some s =>
      if String.eqb s EmptyString then [blank]
      else if (100 <? String.length s)%nat then [max_length 100]
      else []
  end.

(** Modelled from the spec: the content is required and non-empty (spec,
    CreateNote). *)
Definition validate_content (v : option string) : list Reason :=
  match v with
  | None => [required]
  | Some s => if String.eqb s EmptyString then [blank] else []
  end.

(** Modelled from the spec: [serializer.errors] maps each rejected field to
    its reasons (spec, CreateNote). *)
Definition errors (d : Data) : Dict :=
  (field_errors "title" (validate_title (title d)) ++
   field_errors "content" (validate_content (content d)))%list.

Definition is_valid (d : Data) : bool :=
  match errors d with [] => true | _ => false end.

(** Modelled from the spec: each item exposes [id, title, content,
    author_username, author_id, created_at], the two author fields being
    read through the author relation (spec, ListNotes; [tests.py],
    [test_note_serialization]). *)
Definition to_representation (n : Note.t) : Json :=
  JDict [("id", JInt (Note.id n));
         ("title", JStr (Note.title n));
         ("content", JStr (Note.content n));
         ("author_username", JStr (User.username (Note.author n)));
         ("author_id", JInt (User.id (Note.author n)));
         ("created_at", JInt (Note.created_at n))].

Section note_serializer_db.
Context {DB : Type} `{!Backend DB}.

(** [serializer.save(author=user)] at clock reading [now]. *)
Definition save (now : Z) (d : Data) (author : User.t) : M DB Note.t :=
  note_create now (default EmptyString (title d))
                  (default EmptyString (content d)) author.

(** [get_serializer(queryset, many=True).data]: the queryset is
    iterated here. *)
Definition many_data (queryset : QuerySet) : M DB Json :=
  ns <- qs_iter queryset;;
  ret (JList (to_representation <$> ns)).
End note_serializer_db.
End NoteSerializer.

(** [UserSerializer] of [serializers.py], which is not among the sources. *)
Module UserSerializer.
(** Modelled from the spec: a registration request has a [username] and a
    [password] (spec, External Interfaces). *)
Record Data : Type := mk {
  username : option string;
  password : option string
}.

(** Modelled from the spec: the password is required (spec, Principal). *)
Definition validate_password (v : option string) : list Reason :=
  match v with
  | None => [required]
  | Some s => if String.eqb s EmptyString then [blank] else []
  end.

Section user_serializer_db.
Context {DB : Type} `{!Backend DB}.

(** Modelled from the spec: the username is required, non-blank and unique
    (spec, Principal); the uniqueness validator asks the database. *)
Definition validate_username (v : option string) : M DB (list Reason) :=
  match v with
  | None => ret [required]
  | Some s =>
      if String.eqb s EmptyString then ret [blank]
      else taken <- username_exists s;;
           ret (if taken : bool then [not_unique] else [])
  end.

Definition errors (d : Data) : M DB Dict :=
  rs <- validate_username (username d);;
  ret (field_errors "username" rs ++
       field_errors "password" (validate_password (password d)))%list.

Definition save (d : Data) : M DB User.t :=
  user_create (default EmptyString (username d))
              (default EmptyString (password d)).
End user_serializer_db.
End UserSerializer.

(** ** The framework: generic views *)

(** [django.shortcuts]. *)
Module shortcuts.
Section shortcuts_db.
Context {DB : Type} `{!Backend DB}.

(** [get_object_or_404(queryset, pk=pk)]: [queryset.get(pk=pk)], with the
    model's [DoesNotExist] turned into
    [Http404("No %s matches the given query." % object_name)]. *)
Definition get_object_or_404 (queryset : QuerySet) (pk : Z) : M DB Note.t :=
  try_except_DoesNotExist (qs_get queryset pk)
    (raise (Http404 "No Note matches the given query.")).
End shortcuts_db.
End shortcuts.

(** [rest_framework.generics] and [rest_framework.mixins], for a view on
    notes whose [get_queryset] is given. *)
Module generics.
Section generics_db.
Context {DB : Type} `{!Backend DB}.

(** [get_object_or_404(queryset, pk=pk)]: Django's shortcut, with
    [TypeError], [ValueError] and [ValidationError] turned into an [Http404]
    without a message. *)
Definition get_object_or_404 (queryset : QuerySet) (pk : Z) : M DB Note.t :=
  try_except (shortcuts.get_object_or_404 queryset pk)
    (λ e, match e with
          | TypeError _ | ValueError _ | ValidationError _ =>
              raise (Http404 EmptyString)
          | _ => raise e
          end).

(** [GenericAPIView.get_object]; the permission [IsAuthenticated] has no
    check on the object. *)
Definition get_object (get_queryset : M DB QuerySet) (pk : Z) : M DB Note.t :=
  queryset <- get_queryset;;
  get_object_or_404 queryset pk.

(** [DestroyModelMixin.destroy]. *)
Definition destroy (get_queryset : M DB QuerySet) (pk : Z) : M DB Response.t :=
  instance <- get_object get_queryset pk;;
  note_delete instance;;;
  ret (Response.mk JNull status.HTTP_204_NO_CONTENT).
End generics_db.
End generics.

(** ** Logging *)

(** [utils/logging_utility.py], which is not among the sources.  [extra] is
    the optional second argument of a call, [JNull] when it is not given. *)
Module logging_utility.
Section logging_db.
Context {DB : Type}.

(** Modelled from the spec: [utils/logging_utility.py] is not among the
    sources.  Logging observes a view and never alters its outcome (spec,
    Audit Logger): a call returns and leaves the database alone.  The same
    holds for [log_warning], [log_error] and [log_debug]. *)
Definition log_info (message : string) (extra : Json) : M DB unit := ret tt.

Definition log_warning (message : string) (extra : Json) : M DB unit := ret tt.

Definition log_error (message : string) (e : Exception) : M DB unit := ret tt.

Definition log_debug (message : string) : M DB unit := ret tt.

(** Modelled from the spec: the scope [with LogFunctionCall(...)] runs its
    body and lets its result or its exception through (spec, Audit
    Logger). *)
Definition LogFunctionCall {A} (name : string) (user_id : option Z)
    (body : M DB A) : M DB A :=
  body.
End logging_db.
End logging_utility.
Import logging_utility.

(** ** The views of [views.py] *)

(** The response of the clause [except Exception as e] of every view. *)
Definition error_response (e : Exception) : Response.t :=
  Response.mk (JDict [("status", JStr "error"); ("message", JStr (str e))])
              status.HTTP_500_INTERNAL_SERVER_ERROR.

Module NoteListCreate.
Section note_list_create_db.
Context {DB : Type} `{!Backend DB}.

Definition get_queryset (user : User.t) : M DB QuerySet :=
  LogFunctionCall "NoteListCreate.get_queryset" (Some (User.id user))
    (try_except
       (let queryset :=
          order_by_created_at_desc (qs_all (select_related_author objects)) in
        count <- qs_count queryset;;
        log_info ("Retrieved " ++ pretty count ++ " notes for user "
                  ++ User.username user) JNull;;;
        ret queryset)
       (λ e, log_error "Failed to retrieve notes" e;;; raise e)).

(** The statements of [list] inside its [try]. *)
Definition list_try (user : User.t) : M DB Response.t :=
  queryset <- get_queryset user;;
  data <- NoteSerializer.many_data queryset;;
  ret (Response.mk
         (JDict [("status", JStr "success");
                 ("message", JStr "Notes retrieved successfully.");
                 ("data", data)])
         status.HTTP_200_OK).

(** [create] does not call [perform_create]; its [print] is left out. *)
Definition perform_create (now : Z) (user : User.t)
    (d : NoteSerializer.Data) : M DB unit :=
  LogFunctionCall "NoteListCreate.perform_create" (Some (User.id user))
    (try_except
       (if NoteSerializer.is_valid d then
          note <- NoteSerializer.save now d user;;
          log_info ("Note created successfully - ID: " ++ pretty (Note.id note)
                    ++ ", Title: '" ++ Note.title note ++ "', Author: "
                    ++ User.username user) JNull
        else
          log_warning ("Invalid note creation attempt by user "
                       ++ User.username user)
                      (JDict [("errors", JDict (NoteSerializer.errors d))]))
       (λ e, log_error ("Error creating note for user " ++ User.username user) e;;;
             raise e)).

(** The statements of [create] inside its [try]; [now] is the reading of the
    server clock when the note is saved. *)
Definition create_try (now : Z) (user : User.t)
    (d : NoteSerializer.Data) : M DB Response.t :=
  if NoteSerializer.is_valid d then
    note <- NoteSerializer.save now d user;;
    log_info ("Note created successfully - ID: " ++ pretty (Note.id note)
              ++ ", Title: '" ++ Note.title note ++ "', Author: "
              ++ User.username user) JNull;;;
    ret (Response.mk
           (JDict [("status", JStr "success");
                   ("message", JStr "Note created successfully.");
                   ("data", NoteSerializer.to_representation note)])
           status.HTTP_201_CREATED)
  else
    log_warning ("Invalid note creation attempt by user " ++ User.username user)
                (JDict [("errors", JDict (NoteSerializer.errors d))]);;;
    ret (Response.mk
           (JDict [("status", JStr "error");
                   ("message", JStr "Invalid data provided.");
                   ("errors", JDict (NoteSerializer.errors d))])
           status.HTTP_400_BAD_REQUEST).

Definition create (now : Z) (user : User.t)
    (d : NoteSerializer.Data) : M DB Response.t :=
  LogFunctionCall "NoteListCreate.create" (Some (User.id user))
    (try_except (create_try now user d)
       (λ e, log_error ("Error creating note for user " ++ User.username user) e;;;
             ret (error_response e))).

Definition list (user : User.t) : M DB Response.t :=
  LogFunctionCall "NoteListCreate.list" (Some (User.id user))
    (try_except (list_try user)
       (λ e, log_error "Error retrieving notes" e;;; ret (error_response e))).
End note_list_create_db.
End NoteListCreate.

Module NoteDelete.
(** The dictionary [note_info] that [destroy] fills before it deletes. *)
Record NoteInfo : Type := mk_info {
  info_id : Z;
  info_title : string;
  info_author : string
}.

Definition note_info_json (i : NoteInfo) : Json :=
  JDict [("id", JInt (info_id i));
         ("title", JStr (info_title i));
         ("author", JStr (info_author i))].

Section note_delete_db.
Context {DB : Type} `{!Backend DB}.

Definition get_queryset (user : User.t) : M DB QuerySet :=
  LogFunctionCall "NoteDelete.get_queryset" (Some (User.id user))
    (try_except
       (if User.is_staff user || User.is_superuser user then
          log_info ("Admin user " ++ User.username user
                    ++ " accessing delete queryset") JNull;;;
          ret (qs_all objects)
        else
          log_warning ("Non-admin user " ++ User.username user
                       ++ " attempted to access delete queryset") JNull;;;
          ret (qs_none objects))
       (λ e, log_error "Error in delete queryset" e;;; raise e)).

(** The statements of [destroy] inside its outer [try].  The inner [try]
    either leaves through its [except] clause with a response or falls
    through with [note_info]. *)
Definition destroy_try (user : User.t) (pk : Z) : M DB Response.t :=
  if negb (User.is_staff user || User.is_superuser user) then
    log_warning ("Unauthorized delete attempt by user " ++ User.username user)
                JNull;;;
    ret (Response.mk
           (JDict [("status", JStr "error");
                   ("message", JStr "Only administrators can delete notes.")])
           status.HTTP_403_FORBIDDEN)
  else
    found <- try_except_DoesNotExist
               (note <- generics.get_object (get_queryset user) pk;;
                ret (inr (mk_info (Note.id note) (Note.title note)
                                  (User.username (Note.author note)))))
               (log_warning ("Note not found for deletion by admin "
                             ++ User.username user) JNull;;;
                ret (inl (Response.mk
                            (JDict [("status", JStr "error");
                                    ("message", JStr "Note not found.")])
                            status.HTTP_404_NOT_FOUND)));;
    match found with
    | inl response => ret response
    | inr note_info =>
        generics.destroy (get_queryset user) pk;;;
        log_info ("Note deleted successfully by admin " ++ User.username user)
                 (note_info_json note_info);;;
        ret (Response.mk
               (JDict [("status", JStr "success");
                       ("message",
                        JStr ("Note '" ++ info_title note_info ++ ",' by: '"
                              ++ info_author note_info
                              ++ "' has been deleted successfully."));
                       ("data",
                        JDict [("deleted_note", note_info_json note_info)])])
               status.HTTP_200_OK)
    end.

Definition destroy (user : User.t) (pk : Z) : M DB Response.t :=
  LogFunctionCall "NoteDelete.destroy" (Some (User.id user))
    (try_except (destroy_try user pk)
       (λ e, log_error ("Error deleting note for admin " ++ User.username user) e;;;
             ret (error_response e))).
End note_delete_db.
End NoteDelete.

Module CreateUserView.
Section create_user_db.
Context {DB : Type} `{!Backend DB}.

(** The statements of [create] inside its [try]; [is_valid()] computes the
    errors. *)
Definition create_try (d : UserSerializer.Data) : M DB Response.t :=
  errors <- UserSerializer.errors d;;
  match errors with
  | [] =>
      user <- UserSerializer.save d;;
      log_info ("New user registered successfully - Username: "
                ++ User.username user ++ ", ID: " ++ pretty (User.id user))
               JNull;;;
      ret (Response.mk
             (JDict [("status", JStr "success");
                     ("message", JStr "User registered successfully.");
                     ("data", JDict [("id", JInt (User.id user));
                                     ("username", JStr (User.username user))])])
             status.HTTP_201_CREATED)
  | _ =>
      log_warning "Invalid user registration attempt"
                  (JDict [("errors", JDict errors)]);;;
      ret (Response.mk
             (JDict [("status", JStr "error");
                     ("message", JStr "Invalid registration data.");
                     ("errors", JDict errors)])
             status.HTTP_400_BAD_REQUEST)
  end.

Definition create (d : UserSerializer.Data) : M DB Response.t :=
  LogFunctionCall "CreateUserView.create" None
    (try_except (create_try d)
       (λ e, log_error "Error during user registration" e;;;
             ret (error_response e))).
End create_user_db.
End CreateUserView.

Module CurrentUserView.
Section current_user_db.
Context {DB : Type} `{!Backend DB}.

Definition get_try (user : User.t) : M DB Response.t :=
  let user_data :=
    JDict [("id", JInt (User.id user));
           ("username", JStr (User.username user));
           ("is_admin", JBool (User.is_staff user || User.is_superuser user));
           ("is_staff", JBool (User.is_staff user));
           ("is_superuser", JBool (User.is_superuser user))] in
  log_debug ("User info retrieved for " ++ User.username user);;;
  ret (Response.mk
         (JDict [("status", JStr "success");
                 ("message", JStr "User information retrieved successfully.");
                 ("data", user_data)])
         status.HTTP_200_OK).

Definition get (user : User.t) : M DB Response.t :=
  LogFunctionCall "CurrentUserView.get" (Some (User.id user))
    (try_except (get_try user)
       (λ e, log_error ("Error retrieving user info for " ++ User.username user) e;;;
             ret (error_response e))).
End current_user_db.
End CurrentUserView.

(** ** The five operations *)

Inductive Request : Type :=
| ListNotes (user : User.t)
| CreateNote (now : Z) (user : User.t) (d : NoteSerializer.Data)
| DeleteNote (user : User.t) (pk : Z)
| GetCurrentUser (user : User.t)
| Register (d : UserSerializer.Data).

Section dispatch.
Context {DB : Type} `{!Backend DB}.

(** What a view runs inside its [try]. *)
Definition view_try (r : Request) : M DB Response.t :=
  match r with
  | ListNotes user => NoteListCreate.list_try user
  | CreateNote now user d => NoteListCreate.create_try now user d
  | DeleteNote user pk => NoteDelete.destroy_try user pk
  | GetCurrentUser user => CurrentUserView.get_try user
  | Register d => CreateUserView.create_try d
  end.

(** The view that answers a request. *)
Definition view (r : Request) : M DB Response.t :=
  match r with
  | ListNotes user => NoteListCreate.list user
  | CreateNote now user d => NoteListCreate.create now user d
  | DeleteNote user pk => NoteDelete.destroy user pk
  | GetCurrentUser user => CurrentUserView.get user
  | Register d => CreateUserView.create d
  end.
End dispatch.

(** ** The response envelope *)

Definition is_str (j : Json) : bool :=
  match j with JStr _ => true | _ => false end.

Definition json_str_eqb (j : Json) (s : string) : bool :=
  match j with JStr s' => String.eqb s' s | _ => false end.

(** The body is a dictionary whose [status] is "success" or "error", that
    has a [message], that has [data] only under "success", [errors] only
    under "error" with status code 400, and never both. *)
Definition envelope_ok (r : Response.t) : bool :=
  match Response.data r with
  | JDict d =>
      match dict_get "status" d, dict_get "message" d with
      | Some st, Some msg =>
          (json_str_eqb st "success" || json_str_eqb st "error")
          && is_str msg
          && (negb (dict_has "data" d) || json_str_eqb st "success")
          && (negb (dict_has "errors" d)
              || (json_str_eqb st "error"
                  && Z.eqb (Response.status_code r) status.HTTP_400_BAD_REQUEST))
          && negb (dict_has "data" d && dict_has "errors" d)
      | _, _ => false
      end
  | _ => false
  end.

(** ** A relational store *)

(** A row of the note table and of the user table; the primary key is the
    key of the table. *)
Record NoteRow : Type := mk_note_row {
  row_title : string;
  row_content : string;
  row_author : User.t;
  row_created_at : Z
}.

Record UserRow : Type := mk_user_row {
  row_username : string;
  row_password : string;
  row_is_staff : bool;
  row_is_superuser : bool
}.

(** The two tables and the sequences their next primary keys come from. *)
Record Store : Type := mk_store {
  notes : gmap Z NoteRow;
  note_seq : Z;
  users : gmap Z UserRow;
  user_seq : Z
}.

Definition note_of_row (pk : Z) (r : NoteRow) : Note.t :=
  Note.mk pk (row_title r) (row_content r) (row_author r) (row_created_at r).

Definition user_of_row (pk : Z) (r : UserRow) : User.t :=
  User.mk pk (row_username r) (row_password r) (row_is_staff r)
          (row_is_superuser r).

(** [a] may come before [b] when the rows are ordered by [-created_at]. *)
Definition created_desc (a b : Note.t) : Prop :=
  (Note.created_at b ≤ Note.created_at a)%Z.

Global Instance created_desc_dec : RelDecision created_desc.
Proof. intros a b. unfold created_desc. apply _. Defined.

(** The rows a queryset selects, in the order it yields them.  Rows of equal
    [created_at] come in an order the database is free to choose; the
    properties below do not depend on it. *)
Fixpoint qs_rows (tbl : gmap Z NoteRow) (q : QuerySet) : list Note.t :=
  match q with
  | objects => (λ kv, note_of_row kv.1 kv.2) <$> map_to_list tbl
  | qs_all q' => qs_rows tbl q'
  | qs_none _ => []
  | select_related_author q' => qs_rows tbl q'
  | order_by_created_at_desc q' => merge_sort created_desc (qs_rows tbl q')
  end.

(** The row a queryset selects for a primary key. *)
Fixpoint qs_lookup (tbl : gmap Z NoteRow) (q : QuerySet) (pk : Z) : option Note.t :=
  match q with
  | objects => note_of_row pk <$> tbl !! pk
  | qs_all q' => qs_lookup tbl q' pk
  | qs_none _ => None
  | select_related_author q' => qs_lookup tbl q' pk
  | order_by_created_at_desc q' => qs_lookup tbl q' pk
  end.

Module memdb.
Definition qs_iter (q : QuerySet) : M Store (list Note.t) :=
  λ db, (Return (qs_rows (notes db) q), db).

Definition qs_count (q : QuerySet) : M Store nat :=
  λ db, (Return (length (qs_rows (notes db) q)), db).

Definition qs_get (q : QuerySet) (pk : Z) : M Store Note.t :=
  λ db, match qs_lookup (notes db) q pk with
        | Some n => (Return n, db)
        | None => (Raise (DoesNotExist "Note matching query does not exist."), db)
        end.

Definition note_create (now : Z) (title content : string) (author : User.t)
    : M Store Note.t :=
  λ db, let pk := note_seq db in
        let row := mk_note_row title content author now in
        (Return (note_of_row pk row),
         mk_store (<[pk := row]> (notes db)) (pk + 1) (users db) (user_seq db)).

Definition note_delete (n : Note.t) : M Store unit :=
  λ db, (Return tt,
         mk_store (delete (Note.id n) (notes db)) (note_seq db)
                  (users db) (user_seq db)).

Definition username_exists (name : string) : M Store bool :=
  λ db, (Return (existsb (λ kv, String.eqb (row_username kv.2) name)
                         (map_to_list (users db))), db).

Definition user_create (name pw : string) : M Store User.t :=
  λ db, let pk := user_seq db in
        let row := mk_user_row name pw false false in
        (Return (user_of_row pk row),
         mk_store (notes db) (note_seq db) (<[pk := row]> (users db)) (pk + 1)).
End memdb.

Global Instance memdb_backend : Backend Store := {
  qs_iter := memdb.qs_iter;
  qs_count := memdb.qs_count;
  qs_get := memdb.qs_get;
  note_create := memdb.note_create;
  note_delete := memdb.note_delete;
  username_exists := memdb.username_exists;
  user_create := memdb.user_create
}.

(** Every primary key in use was drawn from its sequence. *)
Definition keys_below {A} (bound : Z) (tbl : gmap Z A) : bool :=
  forallb (λ kv, Z.ltb kv.1 bound) (map_to_list tbl).

Definition store_wf (db : Store) : bool :=
  keys_below (note_seq db) (notes db) && keys_below (user_seq db) (users db).

Definition empty_store : Store := mk_store ∅ 1 ∅ 1.

(** The number of notes in the store. *)
Definition note_count (db : Store) : nat := size (notes db).

(** The requests are answered one after the other, each on the store the
    previous one left. *)
Fixpoint run (rs : list Request) (db : Store) : Store :=
  match rs with
  | [] => db
  | r :: rs' => run rs' (view r db).2
  end.

(** [json_get k j] is [j[k]] when [j] is a dictionary with the key [k]. *)
Definition json_get (k : string) (j : Json) : option Json :=
  match j with JDict d => dict_get k d | _ => None end.

(** ** Changes of the store *)

(** A view leaves the store as it is, adds one note under the next id of the
    sequence, removes one note, or adds one user under the next id. *)
Inductive store_step (db : Store) : Store → Prop :=
| step_none : store_step db db
| step_note_added (row : NoteRow) :
    store_step db (mk_store (<[note_seq db := row]> (notes db))
                            (note_seq db + 1) (users db) (user_seq db))
| step_note_removed (pk : Z) :
    store_step db (mk_store (delete pk (notes db)) (note_seq db)
                            (users db) (user_seq db))
| step_user_added (row : UserRow) :
    store_step db (mk_store (notes db) (note_seq db)
                            (<[user_seq db := row]> (users db))
                            (user_seq db + 1)).

(** A note that was given its id keeps its row for as long as it exists, and
    its id is not given again. *)
Definition row_kept (pk : Z) (row : NoteRow) (db : Store) : Prop :=
  (pk < note_seq db)%Z ∧ ∀ row', notes db !! pk = Some row' → row' = row.

(** ** Answers and requests *)

(** The status codes a view can answer with, each with the [status] of the
    envelope it comes with, as the [Response(...)] calls of the view have
    them.  The statements of the current-user view make no query and cannot
    raise, so its clause for exceptions is left out. *)
Definition answers (r : Request) : list (Z * string) :=
  match r with
  | ListNotes _ => [(200, "success"); (500, "error")]
  | CreateNote _ _ _ => [(201, "success"); (400, "error"); (500, "error")]
  | DeleteNote _ _ => [(200, "success"); (403, "error"); (500, "error")]
  | GetCurrentUser _ => [(200, "success")]
  | Register _ => [(201, "success"); (400, "error"); (500, "error")]
  end.

(** A delete request for the note [pk] by a user who is staff or
    superuser. *)
Definition is_admin_delete (pk : Z) (r : Request) : bool :=
  match r with
  | DeleteNote user pk' =>
      (User.is_staff user || User.is_superuser user) && Z.eqb pk' pk
  | _ => false
  end.

(** The errors of a registration on the relational store. *)
Definition register_errors (d : UserSerializer.Data) (db : Store) : Dict :=
  (field_errors "username"
     match UserSerializer.username d with
     | None => [required]
     | Some s =>
         if String.eqb s EmptyString then [blank]
         else if existsb (λ kv, String.eqb (row_username kv.2) s)
                         (map_to_list (users db))
              then [not_unique] else []
     end ++
   field_errors "password"
     (UserSerializer.validate_password (UserSerializer.password d)))%list.

(** Every note of the store was created before the clock reading [now]. *)
Definition all_created_before (now : Z) (db : Store) : bool :=
  forallb (λ kv, Z.ltb (row_created_at kv.2) now) (map_to_list (notes db)).

(** ** Fixtures *)

(** The users and notes that [NoteAPITestCase.setUp] of [tests.py] creates;
    the notes are saved at clock readings 10 and 20. *)
Definition test_user : User.t := User.mk 1 "testuser" "testpass123" false false.
Definition admin_user : User.t := User.mk 2 "admin" "adminpass123" true true.

Definition test_store : Store :=
  mk_store
    (<[1 := mk_note_row "Note 1" "Content 1" test_user 10]>
       (<[2 := mk_note_row "Note 2" "Content 2" admin_user 20]> ∅))
    3
    (<[1 := mk_user_row "testuser" "testpass123" false false]>
       (<[2 := mk_user_row "admin" "adminpass123" true true]> ∅))
    3.

(** A database that is down: every query raises. *)
Definition down (A : Type) : M unit A :=
  raise (OtherException "could not connect to server").

Definition down_backend : Backend unit := {|
  qs_iter := λ _, down _;
  qs_count := λ _, down _;
  qs_get := λ _ _, down _;
  note_create := λ _ _ _ _, down _;
  note_delete := λ _, down _;
  username_exists := λ _, down _;
  user_create := λ _ _, down _
|}.

(** * Properties *)

(** ** Unfolding the views *)

Ltac unfold_monad :=
  unfold LogFunctionCall, log_info, log_warning, log_error, log_debug in *;
  unfold try_except, try_except_DoesNotExist, bind, ret, raise in *.

Ltac unfold_views :=
  unfold view, view_try,
    NoteListCreate.list, NoteListCreate.list_try, NoteListCreate.create,
    NoteListCreate.create_try, NoteListCreate.get_queryset,
    NoteDelete.destroy, NoteDelete.destroy_try, NoteDelete.get_queryset,
    CreateUserView.create, CreateUserView.create_try,
    CurrentUserView.get, CurrentUserView.get_try,
    NoteSerializer.many_data, NoteSerializer.save,
    UserSerializer.errors, UserSerializer.validate_username,
    UserSerializer.save,
    generics.destroy, generics.get_object, generics.get_object_or_404,
    shortcuts.get_object_or_404 in *;
  unfold_monad.

(** Case analysis on the outcome of the next query of the goal. *)
Ltac next_query :=
  match goal with
  | |- context [match ?m ?db with _ => _ end] =>
      lazymatch type of (m db) with
      | (Result _ * _)%type =>
          let r := fresh "r" in let db' := fresh "db" in
          let E := fresh "E" in
          destruct (m db) as [r db'] eqn:E; destruct r; simpl
      end
  end.

(** Case analysis on the class of an exception that the goal matches on. *)
Ltac next_exception :=
  match goal with
  | |- context [match ?e with Http404 _ => _ | _ => _ end] =>
      is_var e; destruct e; simpl
  end.

(** ** Properties that hold on every database *)

Section any_backend.
Context {DB : Type} `{!Backend DB}.

Lemma try_except_Return {A} (m : M DB A) h (db db' : DB) a :
  m db = (Return a, db') → try_except m h db = (Return a, db').
Proof. unfold try_except. by intros ->. Qed.

Lemma try_except_Raise {A} (m : M DB A) h (db db' : DB) e :
  m db = (Raise e, db') → try_except m h db = h e db'.
Proof. unfold try_except. by intros ->. Qed.

(** [get_object_or_404] never lets [Note.DoesNotExist] through. *)
Lemma get_object_or_404_not_DoesNotExist q pk (db db' : DB) msg :
  generics.get_object_or_404 q pk db ≠ (Raise (DoesNotExist msg), db').
Proof.
  unfold generics.get_object_or_404, shortcuts.get_object_or_404. unfold_monad.
  destruct (qs_get q pk db) as [[n|[]] db1]; congruence.
Qed.

Lemma delete_get_queryset user (db : DB) :
  NoteDelete.get_queryset user db =
    (Return (if User.is_staff user || User.is_superuser user
             then qs_all objects else qs_none objects), db).
Proof.
  unfold NoteDelete.get_queryset. unfold_monad.
  by destruct (User.is_staff user || User.is_superuser user).
Qed.

Lemma delete_get_object_not_DoesNotExist user pk (db db' : DB) msg :
  generics.get_object (NoteDelete.get_queryset user) pk db
    ≠ (Raise (DoesNotExist msg), db').
Proof.
  unfold generics.get_object, bind. rewrite delete_get_queryset.
  apply get_object_or_404_not_DoesNotExist.
Qed.
End any_backend.

(** ** Deleting without the right to *)

(** C1. A user who is neither staff nor superuser is answered 403 with the
    message "Only administrators can delete notes." and the database is left
    exactly as it was.  This holds on every database, whatever its queries
    would do, and for every [pk]: no query is made, so the answer does not
    depend on whether a note with that id exists. *)
Theorem delete_by_non_admin_is_forbidden
    {DB : Type} `{!Backend DB} (user : User.t) (pk : Z) (db : DB) :
  User.is_staff user = false →
  User.is_superuser user = false →
  NoteDelete.destroy user pk db =
    (Return (Response.mk
               (JDict [("status", JStr "error");
                       ("message", JStr "Only administrators can delete notes.")])
               403),
     db).
Proof.
  intros Hstaff Hsuper. unfold NoteDelete.destroy, NoteDelete.destroy_try.
  rewrite Hstaff, Hsuper. reflexivity.
Qed.

(** On the store of the tests the regular user is refused for the id of an
    existing note and for an id that no note has, on a database that is down
    as well, and the two notes are still there. *)
Lemma delete_by_non_admin_is_forbidden_witness :
  (view (DeleteNote test_user 1) test_store).1
    = (view (DeleteNote test_user 9999) test_store).1
  ∧ note_count (view (DeleteNote test_user 1) test_store).2 = 2%nat
  ∧ (@NoteDelete.destroy unit down_backend test_user 1 tt).1
    = (view (DeleteNote test_user 1) test_store).1.
Proof.
  pose proof (delete_by_non_admin_is_forbidden test_user 1 test_store
                eq_refl eq_refl) as H1.
  pose proof (delete_by_non_admin_is_forbidden test_user 9999 test_store
                eq_refl eq_refl) as H2.
  pose proof (@delete_by_non_admin_is_forbidden unit down_backend test_user 1 tt
                eq_refl eq_refl) as H3.
  unfold view. rewrite H1, H2, H3.
  split; [reflexivity | split; [vm_compute; reflexivity | reflexivity]].
Defined.

(** ** Creating a note without a title *)

(** C4. A create request whose title is the empty string is answered 400
    with status "error" and an [errors] dictionary that has the key "title";
    nothing is saved: the database is the one before the request, on every
    database. *)
Theorem create_with_empty_title_is_rejected
    {DB : Type} `{!Backend DB} (now : Z) (user : User.t)
    (content : option string) (db : DB) :
  ∃ (resp : Response.t) (errors : Dict),
    NoteListCreate.create now user
      (NoteSerializer.mk (Some EmptyString) content) db = (Return resp, db)
    ∧ Response.status_code resp = 400
    ∧ json_get "status" (Response.data resp) = Some (JStr "error")
    ∧ json_get "errors" (Response.data resp) = Some (JDict errors)
    ∧ dict_has "title" errors = true.
Proof.
  eexists _, _. split; [reflexivity |].
  repeat split; reflexivity.
Qed.

(** ** The current user *)

(** C6. The answer to a current-user request is 200 with status "success";
    its [data] carries the id, username, [is_staff] and [is_superuser] of the
    requesting user, and [is_admin] is their disjunction.  For a user who is
    staff and not superuser [is_admin] is true. *)
Theorem current_user_reports_is_admin
    {DB : Type} `{!Backend DB} (user : User.t) (db : DB) :
  (∃ (resp : Response.t) (data : Json),
     CurrentUserView.get user db = (Return resp, db)
     ∧ Response.status_code resp = 200
     ∧ json_get "status" (Response.data resp) = Some (JStr "success")
     ∧ json_get "data" (Response.data resp) = Some data
     ∧ json_get "id" data = Some (JInt (User.id user))
     ∧ json_get "username" data = Some (JStr (User.username user))
     ∧ json_get "is_staff" data = Some (JBool (User.is_staff user))
     ∧ json_get "is_superuser" data = Some (JBool (User.is_superuser user))
     ∧ json_get "is_admin" data
       = Some (JBool (User.is_staff user || User.is_superuser user)))
  ∧ (∀ (id : Z) (name pw : string),
       ∃ (resp : Response.t) (data : Json),
         CurrentUserView.get (User.mk id name pw true false) db = (Return resp, db)
         ∧ json_get "data" (Response.data resp) = Some data
         ∧ json_get "is_admin" data = Some (JBool true)).
Proof.
  split.
  - eexists _, _. split; [reflexivity |]. repeat split; reflexivity.
  - intros id name pw. eexists _, _. split; [reflexivity |]. split; reflexivity.
Qed.

(** ** Exceptions *)

(** A view is its statements inside [try] and the clause that answers an
    exception. *)
Lemma view_is_try_except {DB : Type} `{!Backend DB} (r : Request) (db : DB) :
  view r db = try_except (view_try r) (λ e, ret (error_response e)) db.
Proof. destruct r; reflexivity. Qed.

(** A view never raises. *)
Lemma view_returns {DB : Type} `{!Backend DB} (r : Request) (db : DB) :
  ∃ resp db', view r db = (Return resp, db').
Proof.
  rewrite view_is_try_except. unfold try_except.
  destruct (view_try r db) as [[resp|e] db']; eauto.
Qed.

(** C8. When the statements of a view raise an exception [e], the view
    returns (it does not raise) a response with status code 500, status
    "error" and message [str e]; the database is the one the failing
    statement left. *)
Theorem view_answers_500_on_exception
    {DB : Type} `{!Backend DB} (r : Request) (e : Exception) (db db' : DB) :
  view_try r db = (Raise e, db') →
  view r db =
    (Return (Response.mk
               (JDict [("status", JStr "error"); ("message", JStr (str e))])
               500),
     db').
Proof.
  intros Hraise. rewrite view_is_try_except.
  by rewrite (try_except_Raise _ _ _ _ _ Hraise).
Qed.

(** A database that is down makes the list view answer 500 with the
    message of the connection error. *)
Lemma view_answers_500_on_exception_witness :
  @view unit down_backend (ListNotes test_user) tt =
    (Return (Response.mk
               (JDict [("status", JStr "error");
                       ("message", JStr "could not connect to server")])
               500),
     tt).
Proof.
  exact (@view_answers_500_on_exception unit down_backend (ListNotes test_user)
           (OtherException "could not connect to server") tt tt eq_refl).
Defined.

(** Where the exceptions come from: a query that raises makes the view
    answer 500 with the message of the exception. *)
Section failing_queries.
Context {DB : Type} `{!Backend DB}.

Lemma list_answers_500_when_count_raises user (db db' : DB) e :
  qs_count (order_by_created_at_desc (qs_all (select_related_author objects))) db
    = (Raise e, db') →
  NoteListCreate.list user db = (Return (error_response e), db').
Proof. intros Hq. unfold_views. by rewrite Hq. Qed.

Lemma list_answers_500_when_iteration_raises user n (db db1 db' : DB) e :
  qs_count (order_by_created_at_desc (qs_all (select_related_author objects))) db
    = (Return n, db1) →
  qs_iter (order_by_created_at_desc (qs_all (select_related_author objects))) db1
    = (Raise e, db') →
  NoteListCreate.list user db = (Return (error_response e), db').
Proof. intros Hc Hi. unfold_views. by rewrite Hc, Hi. Qed.

Lemma create_answers_500_when_save_raises now user d (db db' : DB) e :
  NoteSerializer.is_valid d = true →
  NoteSerializer.save now d user db = (Raise e, db') →
  NoteListCreate.create now user d db = (Return (error_response e), db').
Proof.
  intros Hv Hs. unfold NoteListCreate.create, NoteListCreate.create_try.
  unfold_monad. by rewrite Hv, Hs.
Qed.

Lemma register_answers_500_when_save_raises d (db db1 db' : DB) e :
  UserSerializer.errors d db = (Return [], db1) →
  UserSerializer.save d db1 = (Raise e, db') →
  CreateUserView.create d db = (Return (error_response e), db').
Proof.
  intros He Hs. unfold CreateUserView.create, CreateUserView.create_try.
  unfold_monad. by rewrite He, Hs.
Qed.

(** The lookup of [destroy] raises [Http404] where the database raises
    [Note.DoesNotExist]; the clause [except Note.DoesNotExist] is passed by
    and the statements of the view raise the [Http404]. *)
Lemma destroy_try_raises_Http404 user pk (db db' : DB) msg :
  User.is_staff user || User.is_superuser user = true →
  qs_get (qs_all objects) pk db = (Raise (DoesNotExist msg), db') →
  NoteDelete.destroy_try user pk db
    = (Raise (Http404 "No Note matches the given query."), db').
Proof.
  intros Hadm Hget. unfold_views. rewrite Hadm. simpl. by rewrite Hget.
Qed.

Lemma destroy_answers_500_when_delete_raises user pk n (db db' : DB) e :
  User.is_staff user || User.is_superuser user = true →
  (∀ db0, qs_get (qs_all objects) pk db0 = (Return n, db0)) →
  note_delete n db = (Raise e, db') →
  NoteDelete.destroy user pk db = (Return (error_response e), db').
Proof.
  intros Hadm Hget Hdel. unfold_views. rewrite Hadm. simpl.
  rewrite !Hget. by rewrite Hdel.
Qed.
End failing_queries.

(** [destroy] never answers 404 "Note not found.": its lookup does not raise
    the exception that the clause waits for. *)
Lemma destroy_never_404 {DB : Type} `{!Backend DB} user pk (db db' : DB) resp :
  NoteDelete.destroy user pk db = (Return resp, db') →
  Response.status_code resp ≠ 404.
Proof.
  unfold NoteDelete.destroy, NoteDelete.destroy_try. unfold_monad.
  destruct (negb _) eqn:Hadm; [intros [= <- _]; done |].
  destruct (generics.get_object (NoteDelete.get_queryset user) pk db)
    as [[n|e] db1] eqn:Hget.
  - destruct (generics.destroy (NoteDelete.get_queryset user) pk db1)
      as [[r|e] db2]; intros [= <- _]; done.
  - destruct e as [msg|msg|msg|msg|msg|msg]; try (intros [= <- _]; done).
    by apply delete_get_object_not_DoesNotExist in Hget.
Qed.

(** ** The envelope *)

(** The registration view answers with an envelope whatever the serializer
    finds. *)
Lemma register_answers_with_envelope
    {DB : Type} `{!Backend DB} (d : UserSerializer.Data) (db : DB) :
  ∃ (resp : Response.t) (db' : DB),
    CreateUserView.create d db = (Return resp, db') ∧ envelope_ok resp = true.
Proof.
  unfold CreateUserView.create, CreateUserView.create_try. unfold_monad.
  destruct (UserSerializer.errors d db) as [[errors|e] db1];
    [destruct errors as [|item errors];
       [destruct (UserSerializer.save d db1) as [[user|e] db2] |] |];
    eexists _, _; split; reflexivity.
Qed.

(** C9. Every view answers every request, on every database, with a
    response whose body is a dictionary with a [status] that is "success" or
    "error" and a [message]; [data] is there only under "success", [errors]
    only under "error" with status code 400, and never both. *)
Theorem every_response_is_an_envelope
    {DB : Type} `{!Backend DB} (r : Request) (db : DB) :
  ∃ (resp : Response.t) (db' : DB),
    view r db = (Return resp, db') ∧ envelope_ok resp = true.
Proof.
  destruct r as [user|now user d|user pk|user|d];
    [unfold_views .. | apply register_answers_with_envelope].
  - repeat next_query; eexists _, _; split; reflexivity.
  - destruct (NoteSerializer.is_valid d);
      repeat next_query; eexists _, _; split; reflexivity.
  - destruct (User.is_staff user || User.is_superuser user); simpl;
      repeat (first [next_query | next_exception]);
      eexists _, _; split; reflexivity.
  - eexists _, _; split; reflexivity.
Qed.

(** ** Properties of the relational store *)

Global Instance created_desc_trans : Transitive created_desc.
Proof. unfold created_desc. intros a b c Hab Hbc. lia. Qed.

Global Instance created_desc_total : Total created_desc.
Proof. unfold created_desc. intros a b. lia. Qed.

Global Instance created_desc_refl : Reflexive created_desc.
Proof. unfold created_desc. intros a. lia. Qed.

Lemma keys_below_spec {A} (bound : Z) (tbl : gmap Z A) :
  keys_below bound tbl = true ↔ ∀ pk, is_Some (tbl !! pk) → (pk < bound)%Z.
Proof.
  unfold keys_below. rewrite forallb_forall. split.
  - intros Hall pk [x Hx]. apply elem_of_map_to_list, list_elem_of_In in Hx.
    apply Hall in Hx. simpl in Hx. lia.
  - intros Hlt [pk x] Hin. apply list_elem_of_In, elem_of_map_to_list in Hin.
    simpl. apply Z.ltb_lt. eauto.
Qed.

Lemma store_wf_spec (db : Store) :
  store_wf db = true ↔
    (∀ pk, is_Some (notes db !! pk) → (pk < note_seq db)%Z) ∧
    (∀ pk, is_Some (users db !! pk) → (pk < user_seq db)%Z).
Proof.
  unfold store_wf. rewrite andb_true_iff, !keys_below_spec. tauto.
Qed.

(** In a sorted list an earlier element is related to every later one. *)
Lemma StronglySorted_lookup_le {A} (R : relation A) `{!Reflexive R}
    (l : list A) (i j : nat) (a b : A) :
  StronglySorted R l → (i ≤ j)%nat →
  l !! i = Some a → l !! j = Some b → R a b.
Proof.
  intros Hs. revert i j. induction Hs as [|x l Hs IH Hall]; intros i j Hij Hi Hj.
  - by rewrite lookup_nil in Hi.
  - destruct i as [|i], j as [|j]; simpl in *; simplify_eq.
    + reflexivity.
    + rewrite Forall_forall in Hall. apply Hall.
      by apply list_elem_of_lookup_2 in Hj.
    + lia.
    + apply (IH i j); [lia | done | done].
Qed.

(** The rows of the whole table are its entries. *)
Lemma elem_of_qs_rows_objects (tbl : gmap Z NoteRow) (pk : Z) (row : NoteRow) :
  note_of_row pk row ∈ qs_rows tbl objects ↔ tbl !! pk = Some row.
Proof.
  simpl. rewrite list_elem_of_fmap. split.
  - intros [[pk' row'] [Heq Hin]]. apply elem_of_map_to_list in Hin.
    destruct row, row'. unfold note_of_row in Heq. simpl in *. by simplify_eq.
  - intros Hrow. exists (pk, row). split; [done |].
    by apply elem_of_map_to_list.
Qed.

Lemma length_qs_rows_objects (tbl : gmap Z NoteRow) :
  length (qs_rows tbl objects) = size tbl.
Proof. simpl. by rewrite length_fmap, length_map_to_list. Qed.

(** The queryset of the list view holds the rows of the table, sorted. *)
Lemma list_queryset_rows (tbl : gmap Z NoteRow) :
  let ns := qs_rows tbl
              (order_by_created_at_desc (qs_all (select_related_author objects))) in
  ns ≡ₚ qs_rows tbl objects ∧ StronglySorted created_desc ns.
Proof.
  simpl. split.
  - apply merge_sort_Permutation.
  - apply (StronglySorted_merge_sort created_desc).
Qed.

(** ** Deleting as an administrator *)

(** On the relational store the lookup of a missing note makes the
    statements of [destroy] raise [Http404]. *)
Lemma destroy_missing_note (user : User.t) (pk : Z) (db : Store) :
  User.is_staff user || User.is_superuser user = true →
  notes db !! pk = None →
  view (DeleteNote user pk) db =
    (Return (Response.mk
               (JDict [("status", JStr "error");
                       ("message", JStr "No Note matches the given query.")])
               500),
     db).
Proof.
  intros Hadm Hnone. rewrite view_is_try_except.
  rewrite (try_except_Raise _ _ db db
             (Http404 "No Note matches the given query.")); [reflexivity |].
  apply (destroy_try_raises_Http404 _ _ _ _ "Note matching query does not exist.");
    [done |].
  simpl. unfold memdb.qs_get. simpl. by rewrite Hnone.
Qed.

(** C2, as the code behaves.  The administrator of the tests deletes id 9999
    on the store of the tests, where no note has that id.  The lookup raises
    [Http404], which the clause [except Note.DoesNotExist] does not catch;
    the outer clause answers 500 with the message of the [Http404], not 404
    "Note not found.".  The store is unchanged. *)
Theorem delete_missing_note_is_answered_500 :
  view (DeleteNote admin_user 9999) test_store =
    (Return (Response.mk
               (JDict [("status", JStr "error");
                       ("message", JStr "No Note matches the given query.")])
               500),
     test_store).
Proof. apply destroy_missing_note; reflexivity. Qed.

(** C3. An administrator deletes a note that exists: the answer is 200 with
    status "success" and, under [data], the id, title and author's username
    of the note as they were read before the deletion; the store has exactly
    one note less, no queryset finds a note with that id any more, and the
    other notes are untouched. *)
Theorem delete_existing_note_as_admin
    (user : User.t) (pk : Z) (row : NoteRow) (db : Store) :
  User.is_staff user || User.is_superuser user = true →
  notes db !! pk = Some row →
  ∃ (resp : Response.t) (db' : Store),
    view (DeleteNote user pk) db = (Return resp, db')
    ∧ Response.status_code resp = 200
    ∧ json_get "status" (Response.data resp) = Some (JStr "success")
    ∧ json_get "data" (Response.data resp)
      = Some (JDict [("deleted_note",
                      JDict [("id", JInt pk);
                             ("title", JStr (row_title row));
                             ("author",
                              JStr (User.username (row_author row)))])])
    ∧ note_count db = S (note_count db')
    ∧ (∀ q, qs_lookup (notes db') q pk = None)
    ∧ (∀ q n, n ∈ qs_rows (notes db') q → Note.id n ≠ pk)
    ∧ (∀ pk', pk' ≠ pk → notes db' !! pk' = notes db !! pk').
Proof.
  intros Hadm Hrow.
  exists (Response.mk
            (JDict [("status", JStr "success");
                    ("message",
                     JStr ("Note '" ++ row_title row ++ ",' by: '"
                           ++ User.username (row_author row)
                           ++ "' has been deleted successfully."));
                    ("data",
                     JDict [("deleted_note",
                             JDict [("id", JInt pk);
                                    ("title", JStr (row_title row));
                                    ("author",
                                     JStr (User.username (row_author row)))])])])
            200),
         (mk_store (delete pk (notes db)) (note_seq db) (users db) (user_seq db)).
  assert (Hgone : ∀ q, qs_lookup (delete pk (notes db)) q pk = None).
  { induction q; simpl; [by rewrite lookup_delete_eq | done ..]. }
  split; [| repeat split].
  - unfold_views. rewrite Hadm. simpl. unfold memdb.qs_get. simpl.
    rewrite Hrow. simpl. rewrite Hrow. reflexivity.
  - unfold note_count. simpl. rewrite map_size_delete_Some by eauto.
    pose proof (map_size_ne_0_lookup_2 (notes db) pk (mk_is_Some _ _ Hrow)).
    lia.
  - exact Hgone.
  - simpl. intros q. induction q; simpl; intros n Hn; eauto.
    + apply list_elem_of_fmap in Hn as [[pk' row'] [-> Hin]].
      apply elem_of_map_to_list in Hin. simpl. intros ->.
      by rewrite lookup_delete_eq in Hin.
    + by apply elem_of_nil in Hn.
    + rewrite merge_sort_Permutation in Hn. eauto.
  - simpl. intros pk' Hne. by rewrite lookup_delete_ne.
Qed.

(** The administrator of the tests deletes the first of the two notes. *)
Lemma delete_existing_note_as_admin_witness :
  ∃ (resp : Response.t) (db' : Store),
    view (DeleteNote admin_user 1) test_store = (Return resp, db')
    ∧ Response.status_code resp = 200
    ∧ json_get "data" (Response.data resp)
      = Some (JDict [("deleted_note",
                      JDict [("id", JInt 1);
                             ("title", JStr "Note 1");
                             ("author", JStr "testuser")])])
    ∧ note_count test_store = S (note_count db')
    ∧ notes db' !! 1 = None.
Proof.
  destruct (delete_existing_note_as_admin admin_user 1
              (mk_note_row "Note 1" "Content 1" test_user 10) test_store
              eq_refl eq_refl)
    as (resp & db' & Hview & Hcode & _ & Hdata & Hcount & Hgone & _).
  exists resp, db'. repeat split; try done.
  specialize (Hgone objects). simpl in Hgone. by apply fmap_None in Hgone.
Defined.

(** C10. The queryset of the delete view is [Note.objects.all()] for a user
    who is staff or superuser: it yields every note of the store and finds
    each by its id.  For any other user it is [Note.objects.none()]: it
    yields nothing and finds nothing, so that the lookup of the framework
    raises [Http404] for every id, apart from the check in [destroy]. *)
Theorem delete_queryset_is_all_or_none (user : User.t) (db : Store) :
  ∃ q : QuerySet,
    NoteDelete.get_queryset user db = (Return q, db)
    ∧ if User.is_staff user || User.is_superuser user
      then
        (∀ pk row, note_of_row pk row ∈ qs_rows (notes db) q
                   ↔ notes db !! pk = Some row)
        ∧ length (qs_rows (notes db) q) = note_count db
        ∧ (∀ pk, qs_lookup (notes db) q pk = note_of_row pk <$> notes db !! pk)
      else
        qs_rows (notes db) q = []
        ∧ (∀ pk, qs_lookup (notes db) q pk = None)
        ∧ (∀ pk, generics.get_object (NoteDelete.get_queryset user) pk db
                 = (Raise (Http404 "No Note matches the given query."), db)).
Proof.
  eexists. split; [apply delete_get_queryset |].
  destruct (User.is_staff user || User.is_superuser user) eqn:Hadm.
  - split; [| split].
    + intros pk row. apply elem_of_qs_rows_objects.
    + apply length_qs_rows_objects.
    + done.
  - split; [done | split; [done |]].
    intros pk. unfold generics.get_object, bind.
    rewrite delete_get_queryset, Hadm. reflexivity.
Qed.

(** ** Listing *)

(** C5. The list view answers 200 with status "success"; its [data] is the
    rendering of a list of notes that holds every note of the store,
    whoever its author is, and nothing else, and in which [created_at] never
    increases from an item to a later one. *)
Theorem list_returns_every_note_newest_first (user : User.t) (db : Store) :
  ∃ (ns : list Note.t) (items : list Json),
    view (ListNotes user) db =
      (Return (Response.mk
                 (JDict [("status", JStr "success");
                         ("message", JStr "Notes retrieved successfully.");
                         ("data", JList items)])
                 200),
       db)
    ∧ items = NoteSerializer.to_representation <$> ns
    ∧ (∀ pk row, note_of_row pk row ∈ ns ↔ notes db !! pk = Some row)
    ∧ length items = note_count db
    ∧ (∀ (i j : nat) (x y : Json),
         (i ≤ j)%nat → items !! i = Some x → items !! j = Some y →
         ∃ tx ty : Z,
           json_get "created_at" x = Some (JInt tx)
           ∧ json_get "created_at" y = Some (JInt ty)
           ∧ (ty ≤ tx)%Z).
Proof.
  destruct (list_queryset_rows (notes db)) as [Hperm Hsorted].
  eexists _, _. split; [reflexivity |]. split; [reflexivity |].
  split; [| split].
  - intros pk row. rewrite Hperm. apply elem_of_qs_rows_objects.
  - rewrite length_fmap, Hperm. apply length_qs_rows_objects.
  - intros i j x y Hij Hx Hy.
    apply list_lookup_fmap_Some in Hx as (a & -> & Ha).
    apply list_lookup_fmap_Some in Hy as (b & -> & Hb).
    exists (Note.created_at a), (Note.created_at b).
    split; [reflexivity | split; [reflexivity |]].
    exact (StronglySorted_lookup_le created_desc _ i j a b Hsorted Hij Ha Hb).
Qed.

(** ** What a request can do to the store *)

Lemma view_store_step (r : Request) (db : Store) : store_step db (view r db).2.
Proof.
  destruct r as [user|now user d|user pk|user|d]; unfold_views; simpl.
  - constructor.
  - destruct (NoteSerializer.is_valid d); simpl; constructor.
  - destruct (User.is_staff user || User.is_superuser user); simpl;
      [| constructor].
    unfold memdb.qs_get. simpl.
    destruct (notes db !! pk) as [row|] eqn:Hrow; simpl; [| constructor].
    rewrite Hrow. simpl. constructor.
  - constructor.
  - destruct (UserSerializer.username d) as [name|]; simpl; [| constructor].
    destruct (String.eqb name EmptyString); simpl; [constructor |].
    destruct (existsb _ _); simpl; [constructor |].
    destruct (UserSerializer.validate_password _); simpl; constructor.
Qed.

Lemma store_step_wf (db db' : Store) :
  store_step db db' → store_wf db = true → store_wf db' = true.
Proof.
  rewrite !store_wf_spec. intros Hstep [Hn Hu].
  destruct Hstep as [|row|pk|row]; simpl; (split; [clear Hu | clear Hn]);
    intros k [x Hx]; try (by eauto).
  - destruct (decide (note_seq db = k)) as [<-|Hne]; [lia |].
    rewrite lookup_insert_ne in Hx by done.
    pose proof (Hn k (mk_is_Some _ _ Hx)). lia.
  - destruct (decide (pk = k)) as [<-|Hne].
    + by rewrite lookup_delete_eq in Hx.
    + rewrite lookup_delete_ne in Hx by done. eauto.
  - destruct (decide (user_seq db = k)) as [<-|Hne]; [lia |].
    rewrite lookup_insert_ne in Hx by done.
    pose proof (Hu k (mk_is_Some _ _ Hx)). lia.
Qed.

Lemma store_step_row_kept (pk : Z) (row : NoteRow) (db db' : Store) :
  store_step db db' → row_kept pk row db → row_kept pk row db'.
Proof.
  unfold row_kept. intros Hstep [Hlt Hrow].
  destruct Hstep as [|row0|pk0|row0]; simpl; (split; [lia |]);
    intros row' Hrow'; try (by eauto).
  - rewrite lookup_insert_ne in Hrow' by lia. eauto.
  - destruct (decide (pk0 = pk)) as [->|Hne].
    + by rewrite lookup_delete_eq in Hrow'.
    + rewrite lookup_delete_ne in Hrow' by done. eauto.
Qed.

Lemma run_row_kept (pk : Z) (row : NoteRow) (rs : list Request) (db : Store) :
  row_kept pk row db → row_kept pk row (run rs db).
Proof.
  revert db. induction rs as [|r rs IH]; intros db Hkept; simpl; [done |].
  apply IH. eapply store_step_row_kept; [apply view_store_step | done].
Qed.

Lemma run_wf (rs : list Request) (db : Store) :
  store_wf db = true → store_wf (run rs db) = true.
Proof.
  revert db. induction rs as [|r rs IH]; intros db Hwf; simpl; [done |].
  apply IH. eapply store_step_wf; [apply view_store_step | done].
Qed.

Lemma empty_store_wf : store_wf empty_store = true.
Proof. reflexivity. Qed.

(** ** Creating, then listing *)

(** What the list view returns on the relational store. *)
Lemma list_view_on_store (user : User.t) (db : Store) :
  view (ListNotes user) db =
    (Return (Response.mk
               (JDict [("status", JStr "success");
                       ("message", JStr "Notes retrieved successfully.");
                       ("data",
                        JList (NoteSerializer.to_representation <$>
                                 qs_rows (notes db)
                                   (order_by_created_at_desc
                                      (qs_all (select_related_author objects)))))])
               200),
     db).
Proof. reflexivity. Qed.

(** An item of the list view renders a row of the note table. *)
Lemma listed_item_is_a_row (tbl : gmap Z NoteRow) (item : Json) :
  item ∈ NoteSerializer.to_representation <$>
           qs_rows tbl (order_by_created_at_desc
                          (qs_all (select_related_author objects))) ↔
  ∃ pk row, tbl !! pk = Some row
            ∧ item = NoteSerializer.to_representation (note_of_row pk row).
Proof.
  destruct (list_queryset_rows tbl) as [Hperm _].
  rewrite list_elem_of_fmap. split.
  - intros (n & -> & Hn). rewrite Hperm in Hn. simpl in Hn.
    apply list_elem_of_fmap in Hn as ([pk row] & -> & Hin).
    apply elem_of_map_to_list in Hin. eauto.
  - intros (pk & row & Hrow & ->). eexists. split; [done |].
    rewrite Hperm. by apply elem_of_qs_rows_objects.
Qed.

(** C7. A valid create request of [user] on a well-formed store is answered
    201 and saves a note whose author is [user].  The list that any user is
    given next has an item for the new note, with [author_username] and
    [author_id] those of [user].  After any further requests every note
    that is still in the store has the row it had, in particular its
    author, and whenever the new note is listed it is listed with
    [user] as its author. *)
Theorem created_note_is_listed_with_its_author
    (now : Z) (user : User.t) (d : NoteSerializer.Data) (db : Store) :
  store_wf db = true →
  NoteSerializer.is_valid d = true →
  ∃ (resp : Response.t) (db1 : Store) (row1 : NoteRow),
    view (CreateNote now user d) db = (Return resp, db1)
    ∧ Response.status_code resp = 201
    ∧ notes db1 !! note_seq db = Some row1
    ∧ row_author row1 = user
    ∧ (∀ reader : User.t, ∃ (items : list Json) (item : Json),
         view (ListNotes reader) db1 =
           (Return (Response.mk
                      (JDict [("status", JStr "success");
                              ("message", JStr "Notes retrieved successfully.");
                              ("data", JList items)])
                      200),
            db1)
         ∧ item ∈ items
         ∧ json_get "id" item = Some (JInt (note_seq db))
         ∧ json_get "author_username" item = Some (JStr (User.username user))
         ∧ json_get "author_id" item = Some (JInt (User.id user)))
    ∧ (∀ (rs : list Request) (pk : Z) (row row' : NoteRow),
         notes db1 !! pk = Some row →
         notes (run rs db1) !! pk = Some row' →
         row' = row)
    ∧ (∀ (rs : list Request) (reader : User.t) (items : list Json) (item : Json),
         (view (ListNotes reader) (run rs db1)).1 =
           Return (Response.mk
                     (JDict [("status", JStr "success");
                             ("message", JStr "Notes retrieved successfully.");
                             ("data", JList items)])
                     200) →
         item ∈ items →
         json_get "id" item = Some (JInt (note_seq db)) →
         json_get "author_username" item = Some (JStr (User.username user))
         ∧ json_get "author_id" item = Some (JInt (User.id user))).
Proof.
  intros Hwf Hvalid.
  set (row1 := mk_note_row (default EmptyString (NoteSerializer.title d))
                           (default EmptyString (NoteSerializer.content d))
                           user now).
  set (db1 := mk_store (<[note_seq db := row1]> (notes db)) (note_seq db + 1)
                       (users db) (user_seq db)).
  assert (Hcreate : (view (CreateNote now user d) db).2 = db1).
  { unfold_views. rewrite Hvalid. reflexivity. }
  assert (Hwf1 : store_wf db1 = true).
  { rewrite <- Hcreate. eapply store_step_wf; [apply view_store_step | done]. }
  assert (Hnew : notes db1 !! note_seq db = Some row1).
  { simpl. apply lookup_insert_eq. }
  assert (Hkept : ∀ rs pk row row',
    notes db1 !! pk = Some row → notes (run rs db1) !! pk = Some row' →
    row' = row).
  { intros rs pk row row' Hrow Hrow'.
    assert (row_kept pk row db1) as Hk.
    { split.
      - apply store_wf_spec in Hwf1 as [Hn _]. apply Hn. eauto.
      - intros r Hr. congruence. }
    apply (run_row_kept pk row rs) in Hk as [_ Hk]. eauto. }
  exists (Response.mk
            (JDict [("status", JStr "success");
                    ("message", JStr "Note created successfully.");
                    ("data",
                     NoteSerializer.to_representation
                       (note_of_row (note_seq db) row1))])
            201), db1, row1.
  split. { unfold_views. rewrite Hvalid. reflexivity. }
  split; [reflexivity |]. split; [exact Hnew |]. split; [reflexivity |].
  split.
  { intros reader.
    exists (NoteSerializer.to_representation <$>
              qs_rows (notes db1)
                (order_by_created_at_desc (qs_all (select_related_author objects)))),
           (NoteSerializer.to_representation (note_of_row (note_seq db) row1)).
    split; [apply list_view_on_store |].
    split; [apply listed_item_is_a_row; eauto |].
    repeat split. }
  split; [exact Hkept |].
  intros rs reader items item Hlist Hin Hid.
  rewrite list_view_on_store in Hlist. simpl in Hlist. injection Hlist as <-.
  apply listed_item_is_a_row in Hin as (pk & row & Hrow & ->).
  simpl in Hid. injection Hid as ->.
  rewrite (Hkept rs _ _ _ Hnew Hrow). split; reflexivity.
Qed.

(** The regular user of the tests creates a third note on the store of the
    tests, at clock reading 30. *)
Lemma created_note_is_listed_with_its_author_witness :
  store_wf test_store = true
  ∧ NoteSerializer.is_valid
      (NoteSerializer.mk (Some "New Note") (Some "New note content")) = true
  ∧ ∃ (resp : Response.t) (db1 : Store) (row1 : NoteRow),
      view (CreateNote 30 test_user
              (NoteSerializer.mk (Some "New Note") (Some "New note content")))
           test_store = (Return resp, db1)
      ∧ Response.status_code resp = 201
      ∧ notes db1 !! 3%Z = Some row1
      ∧ row_author row1 = test_user.
Proof.
  split; [reflexivity |]. split; [reflexivity |].
  destruct (created_note_is_listed_with_its_author 30 test_user
              (NoteSerializer.mk (Some "New Note") (Some "New note content"))
              test_store eq_refl eq_refl)
    as (resp & db1 & row1 & Hview & Hcode & Hrow & Hauthor & _).
  exists resp, db1, row1. auto.
Defined.

(** ** The views on the store of the tests *)

(** The list has the newer note first. *)
Example list_on_test_store :
  (view (ListNotes test_user) test_store).1 =
    Return (Response.mk
              (JDict [("status", JStr "success");
                      ("message", JStr "Notes retrieved successfully.");
                      ("data",
                       JList [JDict [("id", JInt 2); ("title", JStr "Note 2");
                                     ("content", JStr "Content 2");
                                     ("author_username", JStr "admin");
                                     ("author_id", JInt 2);
                                     ("created_at", JInt 20)];
                              JDict [("id", JInt 1); ("title", JStr "Note 1");
                                     ("content", JStr "Content 1");
                                     ("author_username", JStr "testuser");
                                     ("author_id", JInt 1);
                                     ("created_at", JInt 10)]])])
              200).
Proof. vm_compute. reflexivity. Qed.

(** A third note gets the id 3. *)
Example create_on_test_store :
  (view (CreateNote 30 test_user
           (NoteSerializer.mk (Some "New Note") (Some "New note content")))
        test_store).1 =
    Return (Response.mk
              (JDict [("status", JStr "success");
                      ("message", JStr "Note created successfully.");
                      ("data",
                       JDict [("id", JInt 3); ("title", JStr "New Note");
                              ("content", JStr "New note content");
                              ("author_username", JStr "testuser");
                              ("author_id", JInt 1);
                              ("created_at", JInt 30)])])
              201)
  ∧ note_count (view (CreateNote 30 test_user
                        (NoteSerializer.mk (Some "New Note")
                                           (Some "New note content")))
                     test_store).2 = 3%nat.
Proof. split; vm_compute; reflexivity. Qed.

(** A title of 101 characters is rejected, as an empty one is. *)
Example create_with_long_title_on_test_store :
  (view (CreateNote 30 test_user
           (NoteSerializer.mk (Some (String.concat EmptyString (replicate 101 "A")))
                              (Some "Test content")))
        test_store) =
    (Return (Response.mk
               (JDict [("status", JStr "error");
                       ("message", JStr "Invalid data provided.");
                       ("errors",
                        JDict [("title",
                                JList [JStr "Ensure this field has no more than 100 characters."])])])
               400),
     test_store).
Proof. vm_compute. reflexivity. Qed.

(** A username that is taken is rejected and no user is added. *)
Example register_taken_username_on_test_store :
  (view (Register (UserSerializer.mk (Some "testuser") (Some "newpass123")))
        test_store) =
    (Return (Response.mk
               (JDict [("status", JStr "error");
                       ("message", JStr "Invalid registration data.");
                       ("errors",
                        JDict [("username",
                                JList [JStr "A user with that username already exists."])])])
               400),
     test_store).
Proof. vm_compute. reflexivity. Qed.

(** A new user gets the next id and no privilege. *)
Example register_on_test_store :
  (view (Register (UserSerializer.mk (Some "newuser") (Some "newpass123")))
        test_store).1 =
    Return (Response.mk
              (JDict [("status", JStr "success");
                      ("message", JStr "User registered successfully.");
                      ("data", JDict [("id", JInt 3);
                                      ("username", JStr "newuser")])])
              201)
  ∧ users (view (Register (UserSerializer.mk (Some "newuser") (Some "newpass123")))
                test_store).2 !! 3%Z
    = Some (mk_user_row "newuser" "newpass123" false false).
Proof. split; vm_compute; reflexivity. Qed.


(** * Further properties of the views *)

(** ** On every database *)

(** What the statements of a view answer when they return. *)
Lemma view_try_answers {DB : Type} `{!Backend DB}
    (r : Request) (db db' : DB) (resp : Response.t) :
  view_try r db = (Return resp, db') →
  ∃ code st,
    (code, st) ∈ answers r ∧ code ≠ 500
    ∧ Response.status_code resp = code
    ∧ json_get "status" (Response.data resp) = Some (JStr st).
Proof.
  destruct r as [user|now user d|user pk|user|d]; simpl.
  - unfold_views. repeat next_query; intros [= <- <-].
    exists 200, "success". repeat split; [set_solver | done].
  - unfold_views. destruct (NoteSerializer.is_valid d);
      repeat next_query; intros [= <- <-].
    + exists 201, "success". repeat split; [set_solver | done].
    + exists 400, "error". repeat split; [set_solver | done].
  - unfold NoteDelete.destroy_try. unfold_monad.
    destruct (negb _).
    + intros [= <- <-]. exists 403, "error". repeat split; [set_solver | done].
    + destruct (generics.get_object (NoteDelete.get_queryset user) pk db)
        as [[n|e] db1] eqn:Hget.
      * destruct (generics.destroy (NoteDelete.get_queryset user) pk db1)
          as [[r|e] db2]; intros [= <- <-].
        exists 200, "success". repeat split; [set_solver | done].
      * destruct e as [msg|msg|msg|msg|msg|msg]; try (intros [=]; done).
        by apply delete_get_object_not_DoesNotExist in Hget.
  - unfold_views. intros [= <- <-].
    exists 200, "success". repeat split; [set_solver | done].
  - unfold CreateUserView.create_try. unfold_monad.
    destruct (UserSerializer.errors d db) as [[errors|e] db1]; [| done].
    destruct errors as [|item errors].
    + destruct (UserSerializer.save d db1) as [[user|e] db2]; intros [= <- <-].
      exists 201, "success". repeat split; [set_solver | done].
    + intros [= <- <-]. exists 400, "error". repeat split; [set_solver | done].
Qed.

(** X1. On every database, each view answers with one of the status codes
    of its [Response(...)] calls, and the [status] of the envelope is
    "success" with 200 and 201 and "error" with 400, 403 and 500.  The delete
    view answers 200, 403 or 500 and never 404; the current-user view always
    answers 200. *)
Theorem view_answers_with_its_codes {DB : Type} `{!Backend DB}
    (r : Request) (db : DB) :
  ∃ (resp : Response.t) (db' : DB) (code : Z) (st : string),
    view r db = (Return resp, db')
    ∧ (code, st) ∈ answers r
    ∧ Response.status_code resp = code
    ∧ json_get "status" (Response.data resp) = Some (JStr st).
Proof.
  rewrite view_is_try_except. unfold try_except.
  destruct (view_try r db) as [[resp|e] db'] eqn:Htry.
  - destruct (view_try_answers r db db' resp Htry)
      as (code & st & Hin & _ & Hcode & Hst).
    by exists resp, db', code, st.
  - exists (error_response e), db', 500, "error".
    repeat split. destruct r; simpl; set_solver.
Qed.

(** X2. A view answers 500 only from its clause [except Exception]: when the
    status code is 500 the statements of the view raised an exception, the
    body of the response is the error envelope with the message of that
    exception, and the database is the one the exception left. *)
Theorem view_answers_500_only_on_exception {DB : Type} `{!Backend DB}
    (r : Request) (db db' : DB) (resp : Response.t) :
  view r db = (Return resp, db') →
  Response.status_code resp = 500 →
  ∃ e : Exception,
    view_try r db = (Raise e, db')
    ∧ resp = Response.mk
               (JDict [("status", JStr "error"); ("message", JStr (str e))])
               500.
Proof.
  rewrite view_is_try_except. unfold try_except.
  destruct (view_try r db) as [[resp0|e] db0] eqn:Htry.
  - intros [= <- <-] Hcode.
    destruct (view_try_answers r db db0 resp0 Htry)
      as (code & st & _ & Hne & Hcode' & _). congruence.
  - intros [= <- <-] _. by exists e.
Qed.

(** The list view of a database that is down answers 500, and it does so
    because the count query raised. *)
Lemma view_answers_500_only_on_exception_witness :
  ∃ e : Exception,
    @view_try unit down_backend (ListNotes test_user) tt = (Raise e, tt)
    ∧ str e = "could not connect to server".
Proof.
  destruct (@view_answers_500_only_on_exception unit down_backend
              (ListNotes test_user) tt tt _ eq_refl eq_refl)
    as (e & Htry & Hresp).
  exists e. split; [exact Htry |]. by injection Hresp as <-.
Defined.



(** X4. [perform_create], which [create] does not call, does to the database
    what [create] does: it saves a note when the data is valid and nothing
    otherwise.  Where [create] answers 500 with the message of an exception,
    [perform_create] raises that exception; on invalid data it returns
    without raising, where [create] answers 400. *)
Theorem perform_create_saves_as_create {DB : Type} `{!Backend DB}
    (now : Z) (user : User.t) (d : NoteSerializer.Data) (db : DB) :
  match NoteListCreate.perform_create now user d db with
  | (Return _, db') =>
      ∃ resp : Response.t,
        NoteListCreate.create now user d db = (Return resp, db')
        ∧ Response.status_code resp
          = (if NoteSerializer.is_valid d then 201 else 400)
        ∧ (NoteSerializer.is_valid d = false → db' = db)
  | (Raise e, db') =>
      NoteSerializer.is_valid d = true
      ∧ NoteListCreate.create now user d db =
          (Return (Response.mk
                     (JDict [("status", JStr "error"); ("message", JStr (str e))])
                     500),
           db')
  end.
Proof.
  unfold NoteListCreate.perform_create, NoteListCreate.create,
    NoteListCreate.create_try.
  unfold_monad.
  destruct (NoteSerializer.is_valid d).
  - destruct (NoteSerializer.save now d user db) as [[note|e] db'].
    + eexists. split; [reflexivity |]. split; [reflexivity | done].
    + split; reflexivity.
  - eexists. split; [reflexivity |]. split; [reflexivity | done].
Qed.

(** ** On the relational store *)

(** The delete view on the relational store, case by case. *)
Lemma destroy_on_store (user : User.t) (pk : Z) (db : Store) :
  view (DeleteNote user pk) db =
    if negb (User.is_staff user || User.is_superuser user) then
      (Return (Response.mk
                 (JDict [("status", JStr "error");
                         ("message", JStr "Only administrators can delete notes.")])
                 403),
       db)
    else
      match notes db !! pk with
      | Some row =>
          (Return (Response.mk
                     (JDict [("status", JStr "success");
                             ("message",
                              JStr ("Note '" ++ row_title row ++ ",' by: '"
                                    ++ User.username (row_author row)
                                    ++ "' has been deleted successfully."));
                             ("data",
                              JDict [("deleted_note",
                                      JDict [("id", JInt pk);
                                             ("title", JStr (row_title row));
                                             ("author",
                                              JStr (User.username
                                                      (row_author row)))])])])
                     200),
           mk_store (delete pk (notes db)) (note_seq db) (users db) (user_seq db))
      | None =>
          (Return (error_response (Http404 "No Note matches the given query.")),
           db)
      end.
Proof.
  unfold_views. destruct (User.is_staff user || User.is_superuser user); simpl;
    [| reflexivity].
  unfold memdb.qs_get. simpl.
  destruct (notes db !! pk) as [row|] eqn:Hrow; simpl; [| reflexivity].
  rewrite Hrow. reflexivity.
Qed.

(** The create view on the relational store. *)
Lemma create_on_store (now : Z) (user : User.t) (d : NoteSerializer.Data)
    (db : Store) :
  view (CreateNote now user d) db =
    if NoteSerializer.is_valid d then
      let row := mk_note_row (default EmptyString (NoteSerializer.title d))
                             (default EmptyString (NoteSerializer.content d))
                             user now in
      (Return (Response.mk
                 (JDict [("status", JStr "success");
                         ("message", JStr "Note created successfully.");
                         ("data",
                          NoteSerializer.to_representation
                            (note_of_row (note_seq db) row))])
                 201),
       mk_store (<[note_seq db := row]> (notes db)) (note_seq db + 1)
                (users db) (user_seq db))
    else
      (Return (Response.mk
                 (JDict [("status", JStr "error");
                         ("message", JStr "Invalid data provided.");
                         ("errors", JDict (NoteSerializer.errors d))])
                 400),
       db).
Proof. unfold_views. by destruct (NoteSerializer.is_valid d). Qed.

Lemma register_errors_on_store (d : UserSerializer.Data) (db : Store) :
  UserSerializer.errors d db = (Return (register_errors d db), db).
Proof.
  unfold UserSerializer.errors, UserSerializer.validate_username,
    register_errors.
  unfold_monad.
  destruct (UserSerializer.username d) as [s|]; [| reflexivity].
  destruct (String.eqb s EmptyString); [reflexivity |]. simpl.
  unfold memdb.username_exists. by destruct (existsb _ _).
Qed.

(** The registration view on the relational store. *)
Lemma register_on_store (d : UserSerializer.Data) (db : Store) :
  view (Register d) db =
    match register_errors d db with
    | [] =>
        let row := mk_user_row (default EmptyString (UserSerializer.username d))
                               (default EmptyString (UserSerializer.password d))
                               false false in
        (Return (Response.mk
                   (JDict [("status", JStr "success");
                           ("message", JStr "User registered successfully.");
                           ("data",
                            JDict [("id", JInt (user_seq db));
                                   ("username", JStr (row_username row))])])
                   201),
         mk_store (notes db) (note_seq db) (<[user_seq db := row]> (users db))
                  (user_seq db + 1))
    | errors =>
        (Return (Response.mk
                   (JDict [("status", JStr "error");
                           ("message", JStr "Invalid registration data.");
                           ("errors", JDict errors)])
                   400),
         db)
    end.
Proof.
  simpl. unfold CreateUserView.create, CreateUserView.create_try.
  unfold LogFunctionCall, try_except, bind at 1.
  rewrite register_errors_on_store.
  by destruct (register_errors d db).
Qed.

(** X5. On a well-formed relational store a request changes the store only
    when it is answered 201 or, for a delete, 200: a created note adds
    exactly one note, a deletion removes exactly one, a registration adds
    exactly one user and leaves the notes alone.  Under every other answer
    (400, 403, 500, and every answer to a list or current-user request) the
    store is exactly the one before the request. *)
Theorem store_changes_only_on_success
    (r : Request) (db db' : Store) (resp : Response.t) :
  store_wf db = true →
  view r db = (Return resp, db') →
  match r with
  | CreateNote _ _ _ =>
      if Z.eqb (Response.status_code resp) 201
      then note_count db' = S (note_count db) ∧ users db' = users db
      else db' = db
  | DeleteNote _ _ =>
      if Z.eqb (Response.status_code resp) 200
      then note_count db = S (note_count db') ∧ users db' = users db
      else db' = db
  | Register _ =>
      if Z.eqb (Response.status_code resp) 201
      then size (users db') = S (size (users db)) ∧ notes db' = notes db
      else db' = db
  | ListNotes _ | GetCurrentUser _ => db' = db
  end.
Proof.
  intros Hwf. apply store_wf_spec in Hwf as [Hnotes Husers].
  destruct r as [user|now user d|user pk|user|d].
  - rewrite list_view_on_store. by intros [= _ <-].
  - rewrite create_on_store. destruct (NoteSerializer.is_valid d).
    + intros [= <- <-]. simpl. split; [| done].
      unfold note_count. simpl. apply map_size_insert_None.
      destruct (notes db !! note_seq db) as [row|] eqn:Hrow; [| done].
      pose proof (Hnotes _ (mk_is_Some _ _ Hrow)). lia.
    + by intros [= <- <-].
  - rewrite destroy_on_store. destruct (negb _); [by intros [= <- <-] |].
    destruct (notes db !! pk) as [row|] eqn:Hrow; intros [= <- <-]; simpl;
      [| done].
    split; [| done]. unfold note_count. simpl.
    rewrite map_size_delete_Some by eauto.
    pose proof (map_size_ne_0_lookup_2 (notes db) pk (mk_is_Some _ _ Hrow)).
    lia.
  - by intros [= _ <-].
  - rewrite register_on_store. destruct (register_errors d db).
    + intros [= <- <-]. simpl. split; [| done].
      apply map_size_insert_None.
      destruct (users db !! user_seq db) as [row|] eqn:Hrow; [| done].
      pose proof (Husers _ (mk_is_Some _ _ Hrow)). lia.
    + by intros [= <- <-].
Qed.

(** The regular user of the tests is refused a deletion on the store of the
    tests, and the store is the same afterwards. *)
Lemma store_changes_only_on_success_witness :
  (view (DeleteNote test_user 1) test_store).2 = test_store.
Proof.
  exact (store_changes_only_on_success (DeleteNote test_user 1) test_store
           (view (DeleteNote test_user 1) test_store).2
           (Response.mk
              (JDict [("status", JStr "error");
                      ("message", JStr "Only administrators can delete notes.")])
              403)
           eq_refl eq_refl).
Defined.

(** A request that is not a deletion of [pk] by an administrator leaves the
    note [pk] of a well-formed store as it is. *)
Lemma view_keeps_note (r : Request) (pk : Z) (row : NoteRow) (db : Store) :
  store_wf db = true →
  notes db !! pk = Some row →
  is_admin_delete pk r = false →
  notes (view r db).2 !! pk = Some row.
Proof.
  intros Hwf Hrow Hr. apply store_wf_spec in Hwf as [Hnotes _].
  pose proof (Hnotes _ (mk_is_Some _ _ Hrow)) as Hlt.
  destruct r as [user|now user d|user pk'|user|d].
  - by rewrite list_view_on_store.
  - rewrite create_on_store. destruct (NoteSerializer.is_valid d); simpl;
      [| done].
    rewrite lookup_insert_ne by lia. done.
  - rewrite destroy_on_store. simpl in Hr.
    destruct (User.is_staff user || User.is_superuser user); simpl; [| done].
    simpl in Hr. apply Z.eqb_neq in Hr.
    destruct (notes db !! pk') as [row'|]; simpl; [| done].
    by rewrite lookup_delete_ne.
  - done.
  - rewrite register_on_store. by destruct (register_errors d db).
Qed.

(** X6. A note of a well-formed relational store is still there, with the
    row it had, after any sequence of requests that has no delete request
    for its id by a user who is staff or superuser: listing, creating,
    registering, and deleting by other users or of other notes neither
    remove nor change it. *)
Theorem note_survives_without_admin_delete
    (rs : list Request) (pk : Z) (row : NoteRow) (db : Store) :
  store_wf db = true →
  notes db !! pk = Some row →
  forallb (λ r, negb (is_admin_delete pk r)) rs = true →
  notes (run rs db) !! pk = Some row.
Proof.
  revert db. induction rs as [|r rs IH]; intros db Hwf Hrow Hrs; [done |].
  simpl in Hrs. apply andb_true_iff in Hrs as [Hr Hrs].
  apply negb_true_iff in Hr. simpl. apply IH; [| | done].
  - eapply store_step_wf; [apply view_store_step | done].
  - by apply view_keeps_note.
Qed.

(** On the store of the tests the regular user tries to delete the first
    note, creates a note and lists, and the administrator deletes the second
    note: the first note is as it was. *)
Lemma note_survives_without_admin_delete_witness :
  notes (run [DeleteNote test_user 1;
              CreateNote 30 test_user
                (NoteSerializer.mk (Some "New Note") (Some "New note content"));
              ListNotes test_user;
              DeleteNote admin_user 2]
             test_store) !! 1%Z
    = Some (mk_note_row "Note 1" "Content 1" test_user 10).
Proof.
  exact (note_survives_without_admin_delete
           [DeleteNote test_user 1;
            CreateNote 30 test_user
              (NoteSerializer.mk (Some "New Note") (Some "New note content"));
            ListNotes test_user;
            DeleteNote admin_user 2]
           1 (mk_note_row "Note 1" "Content 1" test_user 10) test_store
           eq_refl eq_refl eq_refl).
Defined.

(** X7. When an administrator has deleted a note, a second delete request
    for the same id, by any administrator, is answered 500 with the message
    "No Note matches the given query." and changes nothing: the view does
    not answer 404 for a note that is gone. *)
Theorem second_delete_is_answered_500
    (user1 user2 : User.t) (pk : Z) (row : NoteRow) (db : Store) :
  User.is_staff user1 || User.is_superuser user1 = true →
  User.is_staff user2 || User.is_superuser user2 = true →
  notes db !! pk = Some row →
  ∃ (resp1 : Response.t) (db1 : Store),
    view (DeleteNote user1 pk) db = (Return resp1, db1)
    ∧ Response.status_code resp1 = 200
    ∧ view (DeleteNote user2 pk) db1 =
        (Return (Response.mk
                   (JDict [("status", JStr "error");
                           ("message", JStr "No Note matches the given query.")])
                   500),
         db1).
Proof.
  intros Hadm1 Hadm2 Hrow.
  pose proof (destroy_on_store user1 pk db) as Hfirst.
  rewrite Hadm1, Hrow in Hfirst. simpl in Hfirst.
  eexists _, _. split; [exact Hfirst |]. split; [reflexivity |].
  rewrite destroy_on_store, Hadm2. simpl. by rewrite lookup_delete_eq.
Qed.

(** The administrator of the tests deletes the first note twice. *)
Lemma second_delete_is_answered_500_witness :
  Response.status_code
    (match (view (DeleteNote admin_user 1)
                 (view (DeleteNote admin_user 1) test_store).2).1 with
     | Return resp => resp
     | Raise e => error_response e
     end) = 500.
Proof.
  destruct (second_delete_is_answered_500 admin_user admin_user 1
              (mk_note_row "Note 1" "Content 1" test_user 10) test_store
              eq_refl eq_refl eq_refl)
    as (resp1 & db1 & Hfirst & _ & Hsecond).
  rewrite Hfirst. cbn [snd]. rewrite Hsecond. reflexivity.
Defined.

(** The rows of the whole table, the other way round. *)
Lemma elem_of_qs_rows_objects_inv (tbl : gmap Z NoteRow) (n : Note.t) :
  n ∈ qs_rows tbl objects →
  ∃ pk row, tbl !! pk = Some row ∧ n = note_of_row pk row.
Proof.
  simpl. intros ([pk row] & -> & Hin)%list_elem_of_fmap.
  apply elem_of_map_to_list in Hin. eauto.
Qed.

Lemma all_created_before_spec (now : Z) (db : Store) :
  all_created_before now db = true ↔
  ∀ pk row, notes db !! pk = Some row → (row_created_at row < now)%Z.
Proof.
  unfold all_created_before. rewrite forallb_forall. split.
  - intros Hall pk row Hrow.
    apply elem_of_map_to_list, list_elem_of_In, Hall in Hrow.
    simpl in Hrow. lia.
  - intros Hlt [pk row] Hin. apply list_elem_of_In, elem_of_map_to_list in Hin.
    simpl. apply Z.ltb_lt. eauto.
Qed.

(** X8. A note that is created at a clock reading later than the creation
    of every note of the store is the first item of the list that any user
    is given next, and that item is the rendering that the create view
    returned under [data]. *)
Theorem new_note_is_listed_first
    (now : Z) (user reader : User.t) (d : NoteSerializer.Data) (db : Store) :
  NoteSerializer.is_valid d = true →
  all_created_before now db = true →
  ∃ (resp : Response.t) (db1 : Store) (item : Json) (rest : list Json),
    view (CreateNote now user d) db = (Return resp, db1)
    ∧ json_get "data" (Response.data resp) = Some item
    ∧ json_get "created_at" item = Some (JInt now)
    ∧ view (ListNotes reader) db1 =
        (Return (Response.mk
                   (JDict [("status", JStr "success");
                           ("message", JStr "Notes retrieved successfully.");
                           ("data", JList (item :: rest))])
                   200),
         db1).
Proof.
  intros Hvalid Hbefore.
  rewrite all_created_before_spec in Hbefore.
  pose proof (create_on_store now user d db) as Hcreate.
  rewrite Hvalid in Hcreate. simpl in Hcreate.
  set (row1 := mk_note_row (default EmptyString (NoteSerializer.title d))
                           (default EmptyString (NoteSerializer.content d))
                           user now) in *.
  set (db1 := mk_store (<[note_seq db := row1]> (notes db)) (note_seq db + 1)
                       (users db) (user_seq db)) in *.
  set (n1 := note_of_row (note_seq db) row1).
  destruct (list_queryset_rows (notes db1)) as [Hperm Hsorted].
  set (ns := qs_rows (notes db1)
               (order_by_created_at_desc (qs_all (select_related_author objects))))
    in *.
  assert (Hn1 : n1 ∈ ns).
  { rewrite Hperm. apply elem_of_qs_rows_objects. simpl.
    apply lookup_insert_eq. }
  assert (Hhead : ∃ rest, ns = n1 :: rest).
  { destruct ns as [|a rest] eqn:Hns; [by apply elem_of_nil in Hn1 |].
    exists rest. f_equal.
    assert (Ha : a ∈ qs_rows (notes db1) objects).
    { rewrite <- Hperm. apply list_elem_of_here. }
    apply elem_of_qs_rows_objects_inv in Ha as (pk & row & Hrow & ->).
    simpl in Hrow.
    destruct (decide (note_seq db = pk)) as [<-|Hne].
    - rewrite lookup_insert_eq in Hrow. by injection Hrow as <-.
    - rewrite lookup_insert_ne in Hrow by done.
      apply Hbefore in Hrow.
      apply elem_of_cons in Hn1 as [Heq|Hin]; [done |].
      apply StronglySorted_inv in Hsorted as [_ Hall].
      rewrite Forall_forall in Hall. apply Hall in Hin.
      unfold created_desc in Hin. simpl in Hin. lia. }
  destruct Hhead as [rest Hns].
  exists (Response.mk
            (JDict [("status", JStr "success");
                    ("message", JStr "Note created successfully.");
                    ("data", NoteSerializer.to_representation n1)])
            201),
         db1, (NoteSerializer.to_representation n1),
         (NoteSerializer.to_representation <$> rest).
  split; [exact Hcreate |]. split; [reflexivity |]. split; [reflexivity |].
  rewrite list_view_on_store. fold ns. by rewrite Hns.
Qed.

(** On the store of the tests, whose notes were created at 10 and 20, a
    note created at 30 comes first. *)
Lemma new_note_is_listed_first_witness :
  ∃ rest : list Json,
    json_get "data"
      (match (view (ListNotes admin_user)
                   (view (CreateNote 30 test_user
                            (NoteSerializer.mk (Some "New Note")
                                               (Some "New note content")))
                         test_store).2).1 with
       | Return resp => Response.data resp
       | Raise _ => JNull
       end)
    = Some (JList (JDict [("id", JInt 3); ("title", JStr "New Note");
                          ("content", JStr "New note content");
                          ("author_username", JStr "testuser");
                          ("author_id", JInt 1); ("created_at", JInt 30)]
                   :: rest)).
Proof.
  destruct (new_note_is_listed_first 30 test_user admin_user
              (NoteSerializer.mk (Some "New Note") (Some "New note content"))
              test_store eq_refl eq_refl)
    as (resp & db1 & item & rest & Hcreate & Hdata & _ & Hlist).
  exists rest. rewrite Hcreate. cbn [snd]. rewrite Hlist. cbn [fst].
  rewrite create_on_store in Hcreate. simpl in Hcreate.
  injection Hcreate as <- _. simpl in Hdata. injection Hdata as <-.
  reflexivity.
Defined.






(** X11. Whatever requests are answered, in whatever order, starting from
    the empty store, the store stays well-formed: every id in use is below
    the next id of its sequence, so that a created note or a registered user
    never takes the id of an existing one. *)
Theorem reachable_store_is_well_formed (rs : list Request) :
  store_wf (run rs empty_store) = true
  ∧ (∀ pk, is_Some (notes (run rs empty_store) !! pk) →
           (1 ≤ pk < note_seq (run rs empty_store))%Z).
Proof.
  assert (Hinv : ∀ rs db,
    store_wf db = true →
    (∀ pk, is_Some (notes db !! pk) → (1 ≤ pk)%Z) → (1 ≤ note_seq db)%Z →
    store_wf (run rs db) = true
    ∧ (∀ pk, is_Some (notes (run rs db) !! pk) →
             (1 ≤ pk < note_seq (run rs db))%Z)).
  { clear rs. induction rs as [|r rs IH]; intros db Hwf Hpos Hseq.
    - simpl. split; [done |]. intros pk Hpk. split; [by apply Hpos |].
      apply store_wf_spec in Hwf as [Hnotes _]. by apply Hnotes.
    - simpl. pose proof (view_store_step r db) as Hstep.
      apply IH.
      + by eapply store_step_wf.
      + destruct Hstep as [|row|pk'|row]; simpl; intros pk [x Hx]; eauto.
        * destruct (decide (note_seq db = pk)) as [<-|Hne]; [done |].
          rewrite lookup_insert_ne in Hx by done. eauto.
        * destruct (decide (pk' = pk)) as [<-|Hne].
          -- by rewrite lookup_delete_eq in Hx.
          -- rewrite lookup_delete_ne in Hx by done. eauto.
      + destruct Hstep; simpl; lia. }
  apply Hinv; [reflexivity | | done].
  intros pk [x Hx]. simpl in Hx. by rewrite lookup_empty in Hx.
Qed.
